(** * backend/app.py: the /chat and /preview request handlers

    A shallow embedding of the two handlers of [backend/app.py].  Every call
    that leaves the process (the completion client, the search client,
    [requests.get]) and every library routine whose result the handlers only
    consume (the HTML parser, [urlparse]) is a field of the class [Services];
    the handlers are written once, against any instance of it.

    A handler is a computation in the monad [M]: it reads and extends the log
    of outbound calls made so far and ends either with a value or with a
    raised exception.  A service answers as a function of the log at the time
    of the call, so two calls with the same arguments may be answered
    differently (the language model is not deterministic). *)

From stdpp Require Import gmap strings list.

(** ** Python values *)

(** The values a [str]-annotated slot holds at run time: a string, or [None]
    (what [dict.get] and [Tag.string] give when there is nothing). *)
Inductive pyval : Type :=
  | PyNone
  | PyStr (s : string).

Global Instance pyval_eq_dec : EqDecision pyval.
Proof. solve_decision. Defined.

(** [str(v)], which is also what an f-string field [{v}] renders. *)
Definition py_str (v : pyval) : string :=
  match v with
  | PyNone => "None"
  | PyStr s => s
  end.

(** [x] for [Some x], [None] for [None]. *)
Definition py_of_option (o : option string) : pyval :=
  match o with
  | Some s => PyStr s
  | None => PyNone
  end.

(** An instance of a subclass of [Exception]; [exn_str e] is [str(e)]. *)
Record pyexn : Type := Exn {
  exn_type : string;
  exn_str : string
}.

Global Instance pyexn_eq_dec : EqDecision pyexn.
Proof. solve_decision. Defined.

(** [sep.join(xs)] *)
Definition join (sep : string) (xs : list string) : string :=
  String.concat sep xs.

(** ** Data model *)

(** [class Response(BaseModel)].  The class declares [relevant_sources] as
    [list[str]], but assignment to a field is not validated, and [chat]
    stores there whatever [dict.get] returned. *)
Record Response : Type := mkResponse {
  summary : string;
  full_explanation : string;
  relevant_sources : list pyval;
  search_keywords : list string
}.

(** [r.summary = v], [r.full_explanation = v], [r.relevant_sources = v]:
    the object is updated in place, the other fields keep their values. *)
Definition set_summary (r : Response) (v : string) : Response :=
  mkResponse v (full_explanation r) (relevant_sources r) (search_keywords r).

Definition set_full_explanation (r : Response) (v : string) : Response :=
  mkResponse (summary r) v (relevant_sources r) (search_keywords r).

Definition set_relevant_sources (r : Response) (v : list pyval) : Response :=
  mkResponse (summary r) (full_explanation r) v (search_keywords r).

(** A [ParsedChatCompletion], as far as [chat] looks at it: the outcome of
    evaluating [.choices[0].message.parsed], which raises when there is no
    choice and is [None] when the model refused. *)
Record ParsedChatCompletion : Type := mkCompletion {
  choices_0_message_parsed : pyexn + option Response
}.

(** A [requests.Response], as far as the handlers look at it: the outcome of
    [raise_for_status()] and the body [text]. *)
Record HttpResponse : Type := mkHttpResponse {
  raise_for_status : pyexn + unit;
  text : string
}.

(** A [bs4] tag: [get_text()] and the attribute [.string], which is [None]
    unless the tag has exactly one string inside. *)
Record Tag : Type := mkTag {
  get_text : string;
  tag_string : option string
}.

(** A parsed document: [find_all(name)] and the attribute [.title]. *)
Record Soup : Type := mkSoup {
  find_all : string → list Tag;
  title : option Tag
}.

(** Outbound calls, in the order they are made. *)
Inductive Event : Type :=
  | CompletionsParse (model : string) (messages : list (gmap string string))
  | SearchGetDict (params : gmap string string)
  | RequestsGet (url : pyval) (timeout : Z).

(** ** The services the handlers call *)

Class Services : Type := {
  (** [openai_client.beta.chat.completions.parse(response_format=Response,
      model=.., messages=..)] *)
  completions_parse :
    list Event → string → list (gmap string string) →
    pyexn + ParsedChatCompletion;
  (** [GoogleSearch(params).get_dict()] *)
  get_dict :
    list Event → gmap string string →
    pyexn + gmap string (list (gmap string string));
  (** [requests.get(url, timeout=..)] *)
  requests_get : list Event → pyval → Z → pyexn + HttpResponse;
  (** [BeautifulSoup(text, 'html.parser')] *)
  BeautifulSoup : string → pyexn + Soup;
  (** [urlparse(url).netloc] *)
  urlparse_netloc : string → pyexn + string;
  (** [app.state.environment.SERPAPI_KEY] *)
  SERPAPI_KEY : string
}.

(** ** The monad of handlers *)

Definition M (A : Type) : Type := list Event → (pyexn + A) * list Event.

Global Instance M_ret : MRet M := λ A x log, (inr x, log).

Global Instance M_bind : MBind M := λ A B f m log,
  match m log with
  | (inr x, log') => f x log'
  | (inl e, log') => (inl e, log')
  end.

(** A pure step that may raise. *)
Definition lift {A : Type} (r : pyexn + A) : M A := λ log, (r, log).

(** [try: body  except Exception as e: handler(e)] *)
Definition try_except {A : Type} (body : M A) (handler : pyexn → M A) : M A :=
  λ log,
    match body log with
    | (inr x, log') => (inr x, log')
    | (inl e, log') => handler e log'
    end.

(** [for x in xs: acc = body(x, acc)] *)
Fixpoint for_each {A B : Type} (xs : list A) (body : A → B → M B) (acc : B)
  : M B :=
  match xs with
  | [] => mret acc
  | x :: xs' => acc' ← body x acc; for_each xs' body acc'
  end.

(** [o.name] for an [o] that is a [Response] or [None]. *)
Definition getattr (o : option Response) (name : string) : pyexn + Response :=
  match o with
  | Some r => inr r
  | None =>
      inl (Exn "AttributeError"
             ("'NoneType' object has no attribute '" +:+ name +:+ "'"))
  end.

Section Handlers.
Context `{Services}.

Definition call_completions_parse (model : string)
    (messages : list (gmap string string)) : M ParsedChatCompletion :=
  λ log, (completions_parse log model messages,
          log ++ [CompletionsParse model messages]).

Definition call_get_dict (params : gmap string string)
  : M (gmap string (list (gmap string string))) :=
  λ log, (get_dict log params, log ++ [SearchGetDict params]).

Definition call_requests_get (url : pyval) (timeout : Z) : M HttpResponse :=
  λ log, (requests_get log url timeout, log ++ [RequestsGet url timeout]).

(** *** POST /chat *)

Definition system_preamble : string :=
  "you're a helpful assistant that responds to the user's message in a friendly way. you are also a great tutor and explain concepts in a way that is easy to understand. you answer all queries using knowledge from the internet.".

Definition message (role content : string) : gmap string string :=
  {[ "role" := role; "content" := content ]}.

(** The body of the [try] in the loop over [relevant_sources], lines 94-98. *)
Definition fetch_text (url : pyval) : M string :=
  response ← call_requests_get url 5;
  _ ← lift (raise_for_status response);
  soup ← lift (BeautifulSoup (text response));
  mret (join " " (get_text <$> find_all soup "p")).

(** What the [except] branch appends, line 101. *)
Definition fetch_error (url : pyval) (e : pyexn) : string :=
  "Error fetching content from " +:+ py_str url +:+ ": " +:+ exn_str e.

(** One turn of the loop, lines 93-101. *)
Definition scrape_one (url : pyval) (relevant_information : list string)
  : M (list string) :=
  try_except
    (text_content ← fetch_text url;
     mret (relevant_information ++ [text_content]))
    (λ e, mret (relevant_information ++ [fetch_error url e])).

(** Line 87: [search_results.get("organic_results", [])]. *)
Definition organic_results_of
    (search_results : gmap string (list (gmap string string)))
  : list (gmap string string) :=
  default [] (search_results !! "organic_results").

(** Line 88: [[result.get("link") for result in organic_results[:5]]].
    The comprehension has a scope of its own: its [result] is not the
    [result] of the handler. *)
Definition relevant_sources_of
    (search_results : gmap string (list (gmap string string)))
  : list pyval :=
  (λ result, py_of_option (result !! "link"))
    <$> take 5 (organic_results_of search_results).

(** Lines 63-117; [input_message] is [input.input_message].  The two last
    completion calls are both made before either [.parsed] is read, and the
    object [result] of the first call is the one that is updated and
    returned. *)
Definition chat (input_message : string) : M (gmap string Response) :=
  let model := "gpt-4o-mini" in
  let messages :=
    [message "system" system_preamble; message "user" input_message] in
  response ← call_completions_parse model messages;
  result ← lift (choices_0_message_parsed response);
  result ← lift (getattr result "search_keywords");
  let search_keywords := search_keywords result in
  let search_params : gmap string string :=
    {[ "q" := join " " search_keywords;
       "api_key" := SERPAPI_KEY;
       "engine" := "google" ]} in
  search_results ← call_get_dict search_params;
  let relevant_sources := relevant_sources_of search_results in
  relevant_information ← for_each relevant_sources scrape_one [];
  let summary_input := join " " relevant_information in
  let messages :=
    messages ++
    [message "system"
       ("Summarize the following information: " +:+ summary_input)] in
  let messages :=
    messages ++
    [message "system"
       ("Give a detailed explanation of the following information: "
        +:+ summary_input)] in
  summary_response ← call_completions_parse model messages;
  full_explanation_response ← call_completions_parse model messages;
  summary_result ← lift (choices_0_message_parsed summary_response);
  full_explanation_result ←
    lift (choices_0_message_parsed full_explanation_response);
  summary_result ← lift (getattr summary_result "summary");
  let result := set_summary result (summary summary_result) in
  full_explanation_result ←
    lift (getattr full_explanation_result "full_explanation");
  let result :=
    set_full_explanation result (full_explanation full_explanation_result) in
  let result := set_relevant_sources result relevant_sources in
  mret ({[ "my_response" := result ]} : gmap string Response).

(** *** GET /preview *)

(** Lines 120-145.  A [bs4] tag is always true, so the conditional of line
    131 only asks whether there is a title element. *)
Definition get_preview (url : string) : M (gmap string pyval) :=
  try_except
    (response ← call_requests_get (PyStr url) 5;
     _ ← lift (raise_for_status response);
     soup ← lift (BeautifulSoup (text response));
     let title : pyval :=
       match title soup with
       | Some tag => py_of_option (tag_string tag)
       | None => PyStr "No title found"
       end in
     url_host ← lift (urlparse_netloc url);
     mret ({[ "title" := title; "url_host" := PyStr url_host ]}
           : gmap string pyval))
    (λ e,
       mret ({[ "title" := PyStr "Error fetching preview";
                "url_host" := PyStr "Error";
                "error" := PyStr (exn_str e) ]} : gmap string pyval)).

End Handlers.

(** ** Observations on a run

    Names for the intermediate values of [chat], used to state what a run
    did: the message lists, the search query, the log after each stage and
    the text every source contributes. *)

Section Runs.
Context `{Services}.

(** The conversation of the first completion call. *)
Definition initial_messages (input_message : string)
  : list (gmap string string) :=
  [message "system" system_preamble; message "user" input_message].

Definition summarize_message (summary_input : string) : gmap string string :=
  message "system" ("Summarize the following information: " +:+ summary_input).

Definition explain_message (summary_input : string) : gmap string string :=
  message "system"
    ("Give a detailed explanation of the following information: "
     +:+ summary_input).

(** The query built from the first result. *)
Definition search_params_of (result : Response) : gmap string string :=
  {[ "q" := join " " (search_keywords result);
     "api_key" := SERPAPI_KEY;
     "engine" := "google" ]}.

(** The page requests of the loop, one per source. *)
Definition gets (urls : list pyval) : list Event :=
  (λ url, RequestsGet url 5) <$> urls.

(** What the loop appends for [url] when it is reached with log [log]. *)
Definition scraped_text (url : pyval) (log : list Event) : string :=
  match fst (fetch_text url log) with
  | inr text_content => text_content
  | inl e => fetch_error url e
  end.

(** The texts of all sources, each fetched after the ones before it. *)
Fixpoint scraped_texts (urls : list pyval) (log : list Event) : list string :=
  match urls with
  | [] => []
  | url :: urls' =>
      scraped_text url log :: scraped_texts urls' (log ++ [RequestsGet url 5])
  end.

(** The log when the loop over the sources starts. *)
Definition log_after_search (input_message : string) (log : list Event)
    (first : Response) : list Event :=
  log ++ [CompletionsParse "gpt-4o-mini" (initial_messages input_message);
          SearchGetDict (search_params_of first)].

(** The combined corpus string. *)
Definition summary_input_of (input_message : string) (log : list Event)
    (first : Response)
    (search_results : gmap string (list (gmap string string))) : string :=
  join " " (scraped_texts (relevant_sources_of search_results)
              (log_after_search input_message log first)).

(** The conversation of the two last completion calls. *)
Definition final_messages (input_message summary_input : string)
  : list (gmap string string) :=
  initial_messages input_message
  ++ [summarize_message summary_input; explain_message summary_input].

(** The log when the loop over the sources is over. *)
Definition log_after_scrape (input_message : string) (log : list Event)
    (first : Response)
    (search_results : gmap string (list (gmap string string)))
  : list Event :=
  log_after_search input_message log first
  ++ gets (relevant_sources_of search_results).

(** In the run that starts with log [log], the first completion call
    answers with [first] and the search with [search_results]. *)
Definition search_answers (input_message : string) (log : list Event)
    (first : Response)
    (search_results : gmap string (list (gmap string string))) : Prop :=
  let model := "gpt-4o-mini" in
  ∃ response,
    completions_parse log model (initial_messages input_message)
      = inr response ∧
    choices_0_message_parsed response = inr (Some first) ∧
    get_dict
      (log ++ [CompletionsParse model (initial_messages input_message)])
      (search_params_of first) = inr search_results.

(** Moreover the two last completion calls answer, the first of them with
    [second] and the other with [third]. *)
Definition upstream_answers (input_message : string) (log : list Event)
    (first : Response)
    (search_results : gmap string (list (gmap string string)))
    (second third : Response) : Prop :=
  let model := "gpt-4o-mini" in
  let messages :=
    final_messages input_message
      (summary_input_of input_message log first search_results) in
  let log' := log_after_scrape input_message log first search_results in
  search_answers input_message log first search_results ∧
  ∃ summary_response full_explanation_response,
    completions_parse log' model messages = inr summary_response ∧
    completions_parse (log' ++ [CompletionsParse model messages])
      model messages = inr full_explanation_response ∧
    choices_0_message_parsed summary_response = inr (Some second) ∧
    choices_0_message_parsed full_explanation_response = inr (Some third).

(** The ways the body of the loop's [try] raises. *)
Inductive fetch_raises (url : pyval) (log : list Event) (e : pyexn) : Prop :=
  | get_raises :
      requests_get log url 5 = inl e → fetch_raises url log e
  | status_raises response :
      requests_get log url 5 = inr response →
      raise_for_status response = inl e →
      fetch_raises url log e
  | parser_raises response :
      requests_get log url 5 = inr response →
      raise_for_status response = inr () →
      BeautifulSoup (text response) = inl e →
      fetch_raises url log e.

(** The ways the body of the [try] of [get_preview] raises. *)
Inductive preview_raises (url : string) (log : list Event) (e : pyexn)
  : Prop :=
  | preview_fetch_raises :
      fetch_raises (PyStr url) log e → preview_raises url log e
  | preview_urlparse_raises response soup :
      requests_get log (PyStr url) 5 = inr response →
      raise_for_status response = inr () →
      BeautifulSoup (text response) = inr soup →
      urlparse_netloc url = inl e →
      preview_raises url log e.

(** The reply of the [except] branch of [get_preview]. *)
Definition preview_error (e : pyexn) : gmap string pyval :=
  {[ "title" := PyStr "Error fetching preview";
     "url_host" := PyStr "Error";
     "error" := PyStr (exn_str e) ]}.

(** Counting the calls in a log. *)
Definition is_completion (ev : Event) : bool :=
  match ev with CompletionsParse _ _ => true | _ => false end.

Definition is_search (ev : Event) : bool :=
  match ev with SearchGetDict _ => true | _ => false end.

Definition count_calls (p : Event → bool) (log : list Event) : nat :=
  length (List.filter p log).

End Runs.

(** ** Concrete services

    Small worlds on which the handlers can be run. *)

Module Demo.

Definition page_a : string := "<p>alpha</p><p>beta</p>".
Definition page_titled : string := "<title>Example</title>".
Definition page_empty_title : string := "<title></title>".
Definition page_untitled : string := "<p>no head</p>".

Definition paragraphs (texts : list string) : string → list Tag :=
  λ name,
    if decide (name = "p")
    then (λ t, mkTag t (Some t)) <$> texts
    else [].

(** The parser, on the pages of this world. *)
Definition parser (html : string) : pyexn + Soup :=
  if decide (html = page_a) then
    inr (mkSoup (paragraphs ["alpha"; "beta"]) None)
  else if decide (html = page_titled) then
    inr (mkSoup (paragraphs []) (Some (mkTag "Example" (Some "Example"))))
  else if decide (html = page_empty_title) then
    inr (mkSoup (paragraphs []) (Some (mkTag "" None)))
  else if decide (html = page_untitled) then
    inr (mkSoup (paragraphs ["no head"]) None)
  else
    inl (Exn "ParserRejectedMarkup" "malformed content").

(** The web: three pages that answer, one that answers 500, and nothing
    else; a URL that is [None] is refused before any request is sent. *)
Definition web (log : list Event) (url : pyval) (timeout : Z)
  : pyexn + HttpResponse :=
  match url with
  | PyNone =>
      inl (Exn "MissingSchema"
             "Invalid URL 'None': No scheme supplied. Perhaps you meant https://None?")
  | PyStr u =>
      if decide (u = "https://a.example/") then
        inr (mkHttpResponse (inr ()) page_a)
      else if decide (u = "https://example.com") then
        inr (mkHttpResponse (inr ()) page_titled)
      else if decide (u = "https://empty.example") then
        inr (mkHttpResponse (inr ()) page_empty_title)
      else if decide (u = "https://plain.example") then
        inr (mkHttpResponse (inr ()) page_untitled)
      else if decide (u = "https://b.example/") then
        inr (mkHttpResponse
               (inl (Exn "HTTPError"
                       "500 Server Error: Internal Server Error for url: https://b.example/"))
               "oops")
      else
        inl (Exn "ConnectTimeout" "timed out")
  end.

Definition netloc (url : string) : pyexn + string :=
  if decide (url = "https://example.com") then inr "example.com"
  else if decide (url = "https://empty.example") then inr "empty.example"
  else if decide (url = "https://plain.example") then inr "plain.example"
  else if decide (url = "http://[broken") then
    inl (Exn "ValueError" "Invalid IPv6 URL")
  else inr "".

(** The model answers the first call with keywords taken from the user's
    message, and every later call with a different text. *)
Definition first_answer (question : string) : Response :=
  mkResponse "first summary" "first explanation"
    [PyStr "https://guess.example"] [question; "explained"].

Definition llm (log : list Event) (model : string)
    (messages : list (gmap string string))
  : pyexn + ParsedChatCompletion :=
  let question := default "" (messages !! 1%nat ≫= (.!! "content")) in
  match count_calls is_completion log with
  | 0 => inr (mkCompletion (inr (Some (first_answer question))))
  | 1 =>
      inr (mkCompletion
             (inr (Some (mkResponse "second summary" "second explanation"
                           [] ["second"]))))
  | _ =>
      inr (mkCompletion
             (inr (Some (mkResponse "third summary" "third explanation"
                           [] ["third"]))))
  end.

Definition hit (link : string) : gmap string string :=
  {[ "link" := link; "title" := "a result" ]}.

(** Seven organic results, the second of them without a link. *)
Definition results : gmap string (list (gmap string string)) :=
  {[ "organic_results" :=
       [hit "https://a.example/";
        {[ "title" := "no link here" ]};
        hit "https://b.example/";
        hit "https://c.example/";
        hit "https://d.example/";
        hit "https://e.example/";
        hit "https://f.example/"] ]}.

(** A reply of the provider that has no [organic_results]. *)
Definition no_results : gmap string (list (gmap string string)) :=
  {[ "search_metadata" := [] ]}.

(** The search provider knows one query. *)
Definition serp (log : list Event) (params : gmap string string)
  : pyexn + gmap string (list (gmap string string)) :=
  if decide (params !! "q" = Some "rocq explained") then inr results
  else inr no_results.

Definition services : Services := {|
  completions_parse := llm;
  get_dict := serp;
  requests_get := web;
  BeautifulSoup := parser;
  urlparse_netloc := netloc;
  SERPAPI_KEY := "serp-key"
|}.

(** The reply of [chat] to the question "rocq" in this world. *)
Definition reply : gmap string Response :=
  {[ "my_response" :=
       mkResponse "second summary" "third explanation"
         [PyStr "https://a.example/"; PyNone; PyStr "https://b.example/";
          PyStr "https://c.example/"; PyStr "https://d.example/"]
         ["rocq"; "explained"] ]}.

(** What [requests.get(None)] raises. *)
Definition missing_schema : pyexn :=
  Exn "MissingSchema"
    "Invalid URL 'None': No scheme supplied. Perhaps you meant https://None?".

(** A world whose completion service is down. *)
Definition services_llm_down : Services := {|
  completions_parse := λ _ _ _,
    inl (Exn "APIConnectionError" "Connection error.");
  get_dict := serp;
  requests_get := web;
  BeautifulSoup := parser;
  urlparse_netloc := netloc;
  SERPAPI_KEY := "serp-key"
|}.

End Demo.

(** ** Scripted services

    Worlds in which the completion service answers call after call from a
    script and the search provider gives one fixed outcome; the web, the
    parser and [urlparse] are those of [Demo]. *)

(** The page requests of a log. *)
Definition is_page_request (ev : Event) : bool :=
  match ev with RequestsGet _ _ => true | _ => false end.

(** The page requests of a log that do not ask for a timeout of 5. *)
Definition is_untimed_request (ev : Event) : bool :=
  match ev with
  | RequestsGet _ timeout => negb (bool_decide (timeout = 5%Z))
  | _ => false
  end.

Module Script.

Definition connection_error : pyexn :=
  Exn "APIConnectionError" "Connection error.".

(** The [n]-th completion call gets the [n]-th outcome of the script; the
    service is down once the script is over. *)
Definition llm (script : list (pyexn + ParsedChatCompletion))
    (log : list Event) (model : string)
    (messages : list (gmap string string))
  : pyexn + ParsedChatCompletion :=
  default (inl connection_error) (script !! count_calls is_completion log).

Definition services (script : list (pyexn + ParsedChatCompletion))
    (search : pyexn + gmap string (list (gmap string string)))
  : Services := {|
  completions_parse := llm script;
  get_dict := λ _ _, search;
  requests_get := Demo.web;
  BeautifulSoup := Demo.parser;
  urlparse_netloc := Demo.netloc;
  SERPAPI_KEY := "serp-key"
|}.

(** An answer with keywords, an answer that is a refusal, an answer without
    choices, and two ordinary answers. *)
Definition keywords : Response :=
  mkResponse "a" "b" [] ["rocq"; "explained"].

Definition answer (r : Response) : pyexn + ParsedChatCompletion :=
  inr (mkCompletion (inr (Some r))).

Definition refusal : pyexn + ParsedChatCompletion :=
  inr (mkCompletion (inr None)).

Definition index_error : pyexn := Exn "IndexError" "list index out of range".

Definition no_choice : pyexn + ParsedChatCompletion :=
  inr (mkCompletion (inl index_error)).

Definition second : Response := mkResponse "s2" "e2" [] [].
Definition third : Response := mkResponse "s3" "e3" [] [].

Definition search_down : pyexn :=
  Exn "ConnectionError" "search provider unreachable".

End Script.

(** ** The loop over the sources *)

Ltac unfold_M :=
  unfold try_except, lift, call_completions_parse, call_get_dict,
    call_requests_get, mbind, M_bind, mret, M_ret in *.

Section Scraping.
Context `{Services}.

(** A fetch logs its request, whatever the outcome. *)
Lemma fetch_text_log url log :
  snd (fetch_text url log) = log ++ [RequestsGet url 5].
Proof.
  unfold fetch_text; unfold_M.
  destruct (requests_get log url 5) as [e|response]; [done|].
  destruct (raise_for_status response) as [e|[]]; [done|].
  by destruct (BeautifulSoup (text response)).
Qed.

(** [fetch_raises] lists exactly the failures of a fetch. *)
Lemma fetch_text_raises url log e :
  fetch_raises url log e ↔ fst (fetch_text url log) = inl e.
Proof.
  unfold fetch_text; unfold_M. split.
  - intros [Hget|response Hget Hstatus|response Hget Hstatus Hsoup].
    + by rewrite Hget.
    + by rewrite Hget, Hstatus.
    + by rewrite Hget, Hstatus, Hsoup.
  - destruct (requests_get log url 5) as [e'|response] eqn:Hget.
    { simpl. intros [= ->]. by apply get_raises. }
    destruct (raise_for_status response) as [e'|[]] eqn:Hstatus.
    { simpl. intros [= ->]. by eapply status_raises. }
    destruct (BeautifulSoup (text response)) as [e'|soup] eqn:Hsoup.
    { simpl. intros [= ->]. by eapply parser_raises. }
    done.
Qed.

(** A fetch that does not raise gives the paragraphs' texts, joined. *)
Lemma fetch_text_returns url log response soup :
  requests_get log url 5 = inr response →
  raise_for_status response = inr () →
  BeautifulSoup (text response) = inr soup →
  fst (fetch_text url log) = inr (join " " (get_text <$> find_all soup "p")).
Proof.
  intros Hget Hstatus Hsoup. unfold fetch_text; unfold_M.
  by rewrite Hget, Hstatus, Hsoup.
Qed.

Lemma scraped_text_raises url log e :
  fetch_raises url log e → scraped_text url log = fetch_error url e.
Proof.
  intros Hraises%fetch_text_raises. unfold scraped_text. by rewrite Hraises.
Qed.

(** One turn appends one text and never raises. *)
Lemma scrape_one_run url relevant_information log :
  scrape_one url relevant_information log =
  (inr (relevant_information ++ [scraped_text url log]),
   log ++ [RequestsGet url 5]).
Proof.
  unfold scrape_one, scraped_text.
  pose proof (fetch_text_log url log) as Hlog.
  unfold_M. destruct (fetch_text url log) as [[e|text_content] log'];
    simpl in *; by subst.
Qed.

(** The whole loop. *)
Lemma scrape_run urls relevant_information log :
  for_each urls scrape_one relevant_information log =
  (inr (relevant_information ++ scraped_texts urls log), log ++ gets urls).
Proof.
  revert relevant_information log.
  induction urls as [|url urls IH]; intros relevant_information log; simpl.
  - unfold_M. by rewrite !app_nil_r.
  - unfold mbind, M_bind at 1. rewrite scrape_one_run, IH.
    by rewrite <- !app_assoc.
Qed.

Lemma length_scraped_texts urls log :
  length (scraped_texts urls log) = length urls.
Proof.
  revert log. induction urls as [|url urls IH]; intros log; simpl; [done|].
  by rewrite IH.
Qed.

(** The text at position [i] is the one of the [i]-th source, fetched
    after the requests for the sources before it. *)
Lemma lookup_scraped_texts urls log i url :
  urls !! i = Some url →
  scraped_texts urls log !! i
  = Some (scraped_text url (log ++ gets (take i urls))).
Proof.
  revert log i. induction urls as [|url' urls IH]; intros log i; [done|].
  destruct i as [|i]; simpl.
  - intros [= ->]. unfold gets. simpl. by rewrite app_nil_r.
  - intros Hi. rewrite (IH _ _ Hi). unfold gets. simpl.
    by rewrite <- app_assoc.
Qed.

End Scraping.

(** ** Runs of [chat] *)

Ltac norm_run :=
  unfold search_answers, log_after_scrape, log_after_search, summary_input_of,
    final_messages, summarize_message, explain_message, initial_messages,
    search_params_of in *;
  unfold_M;
  rewrite <- ?app_assoc in *; cbn [app] in *.

(** Case analysis on the next call of the run in the goal. *)
Ltac case_call x Hx :=
  let e := fresh "e" in
  lazymatch goal with
  | |- context [match completions_parse ?l ?m ?ms with _ => _ end] =>
      destruct (completions_parse l m ms) as [e|x] eqn:Hx
  | |- context [match get_dict ?l ?ps with _ => _ end] =>
      destruct (get_dict l ps) as [e|x] eqn:Hx
  end.

Section Chat.
Context `{Services}.

(** When every upstream call answers, [chat] returns, whatever the page
    fetches do. *)
Lemma chat_returns input_message log first search_results second third :
  upstream_answers input_message log first search_results second third →
  let messages :=
    final_messages input_message
      (summary_input_of input_message log first search_results) in
  chat input_message log =
  (inr {[ "my_response" :=
            mkResponse (summary second) (full_explanation third)
              (relevant_sources_of search_results) (search_keywords first) ]},
   log_after_scrape input_message log first search_results
   ++ [CompletionsParse "gpt-4o-mini" messages;
       CompletionsParse "gpt-4o-mini" messages]).
Proof.
  intros [(c1 & H1 & Hp1 & Hd) (c2 & c3 & H2 & H3 & Hp2 & Hp3)].
  unfold chat. norm_run.
  rewrite H1, Hp1. cbn [getattr]. rewrite Hd, scrape_run. norm_run.
  rewrite H2, H3, Hp2, Hp3. cbn [getattr]. done.
Qed.

(** Conversely, a run that returns is a run in which every upstream call
    answered, and its reply and log are the ones above. *)
Lemma chat_inv input_message log reply log' :
  chat input_message log = (inr reply, log') →
  ∃ first search_results second third,
    upstream_answers input_message log first search_results second third ∧
    reply =
      {[ "my_response" :=
           mkResponse (summary second) (full_explanation third)
             (relevant_sources_of search_results) (search_keywords first) ]} ∧
    log' =
      log_after_scrape input_message log first search_results
      ++ [CompletionsParse "gpt-4o-mini"
            (final_messages input_message
               (summary_input_of input_message log first search_results));
          CompletionsParse "gpt-4o-mini"
            (final_messages input_message
               (summary_input_of input_message log first search_results))].
Proof.
  unfold chat. norm_run.
  case_call c1 H1; [done|].
  destruct (choices_0_message_parsed c1) as [e|[r1|]] eqn:Hp1;
    cbn [getattr]; [done| |done].
  case_call search_results Hd; [done|].
  rewrite scrape_run. norm_run.
  case_call c2 H2; [done|]. case_call c3 H3; [done|].
  destruct (choices_0_message_parsed c3) as [e|[r3|]] eqn:Hp3;
    destruct (choices_0_message_parsed c2) as [e'|[r2|]] eqn:Hp2;
    cbn [getattr]; try done.
  cbn [getattr]. intros [= <- <-].
  exists r1, search_results, r2, r3. split; [|by norm_run].
  unfold upstream_answers, search_answers. norm_run.
  split; [by exists c1 | by exists c2, c3].
Qed.

(** Once the search has answered, the run goes through the loop and
    makes the second completion call, and at most one call after it, with
    the same arguments. *)
Lemma chat_log_after_search input_message log first search_results :
  search_answers input_message log first search_results →
  let call :=
    CompletionsParse "gpt-4o-mini"
      (final_messages input_message
         (summary_input_of input_message log first search_results)) in
  ∃ rest,
    snd (chat input_message log) =
      log_after_scrape input_message log first search_results
      ++ call :: rest ∧
    (rest = [] ∨ rest = [call]).
Proof.
  intros (c1 & H1 & Hp1 & Hd) call.
  assert (∃ rest, (rest = [] ∨ rest = [call]) ∧
    snd (chat input_message log) =
      log_after_scrape input_message log first search_results
      ++ call :: rest) as (rest & Hrest & Hlog);
    [|by exists rest].
  subst call. unfold chat. norm_run.
  rewrite H1, Hp1. cbn [getattr]. rewrite Hd, scrape_run. norm_run.
  case_call c2 H2; [by exists []; split; [left|norm_run]|].
  eexists; split; [by right|]. norm_run.
  case_call c3 H3; [done|].
  destruct (choices_0_message_parsed c3) as [e|[r3|]];
    destruct (choices_0_message_parsed c2) as [e'|[r2|]]; done.
Qed.

Lemma count_calls_app p log log' :
  count_calls p (log ++ log') = count_calls p log + count_calls p log'.
Proof. unfold count_calls. by rewrite List.filter_app, length_app. Qed.

Lemma count_calls_gets p urls :
  p = is_completion ∨ p = is_search → count_calls p (gets urls) = 0.
Proof.
  intros Hp. unfold count_calls, gets.
  induction urls as [|url urls IH]; [done|]. by destruct Hp as [-> | ->].
Qed.

(** X11. Every run, returning or not, makes between one and three
    completion calls and at most one search. *)
Lemma chat_calls_bounded input_message log :
  ∃ calls,
    snd (chat input_message log) = log ++ calls ∧
    1 ≤ count_calls is_completion calls ≤ 3 ∧
    count_calls is_search calls ≤ 1.
Proof.
  set (call := CompletionsParse "gpt-4o-mini" (initial_messages input_message)).
  destruct (completions_parse log "gpt-4o-mini"
              (initial_messages input_message)) as [e|c1] eqn:H1.
  { exists [call]. split; [|cbn; lia].
    unfold chat. norm_run. by rewrite H1. }
  destruct (choices_0_message_parsed c1) as [e|[r1|]] eqn:Hp1.
  1, 3: exists [call]; (split; [|cbn; lia]);
    unfold chat; norm_run; by rewrite H1, Hp1.
  destruct (get_dict (log ++ [call]) (search_params_of r1))
    as [e|search_results] eqn:Hd.
  { exists [call; SearchGetDict (search_params_of r1)]. split; [|cbn; lia].
    unfold chat. subst call. norm_run. rewrite H1, Hp1. cbn [getattr].
    rewrite Hd. by norm_run. }
  destruct (chat_log_after_search input_message log r1 search_results)
    as (rest & Hlog & Hrest); [by exists c1|].
  eexists. split.
  { rewrite Hlog. unfold log_after_scrape, log_after_search.
    rewrite <- !app_assoc. reflexivity. }
  rewrite !count_calls_app, !count_calls_gets by auto.
  destruct Hrest as [-> | ->]; cbn; lia.
Qed.

End Chat.

(** ** Runs of [get_preview] *)

Section Preview.
Context `{Services}.

Lemma get_preview_returns url log response soup url_host :
  requests_get log (PyStr url) 5 = inr response →
  raise_for_status response = inr () →
  BeautifulSoup (text response) = inr soup →
  urlparse_netloc url = inr url_host →
  get_preview url log =
  (inr {[ "title" :=
            match title soup with
            | Some tag => py_of_option (tag_string tag)
            | None => PyStr "No title found"
            end;
          "url_host" := PyStr url_host ]},
   log ++ [RequestsGet (PyStr url) 5]).
Proof.
  intros Hget Hstatus Hsoup Hhost. unfold get_preview. unfold_M.
  by rewrite Hget, Hstatus, Hsoup, Hhost.
Qed.

Lemma get_preview_caught url log e :
  preview_raises url log e →
  get_preview url log =
  (inr (preview_error e), log ++ [RequestsGet (PyStr url) 5]).
Proof.
  unfold get_preview, preview_error. unfold_M.
  intros [[Hget|response Hget Hstatus|response Hget Hstatus Hsoup]
         |response soup Hget Hstatus Hsoup Hhost].
  - by rewrite Hget.
  - by rewrite Hget, Hstatus.
  - by rewrite Hget, Hstatus, Hsoup.
  - by rewrite Hget, Hstatus, Hsoup, Hhost.
Qed.

(** Either some step of the [try] raises, or all four succeed. *)
Lemma preview_cases url log :
  (∃ e, preview_raises url log e) ∨
  (∃ response soup url_host,
     requests_get log (PyStr url) 5 = inr response ∧
     raise_for_status response = inr () ∧
     BeautifulSoup (text response) = inr soup ∧
     urlparse_netloc url = inr url_host).
Proof.
  destruct (requests_get log (PyStr url) 5) as [e|response] eqn:Hget.
  { left. exists e. by apply preview_fetch_raises, get_raises. }
  destruct (raise_for_status response) as [e|[]] eqn:Hstatus.
  { left. exists e. by eapply preview_fetch_raises, status_raises. }
  destruct (BeautifulSoup (text response)) as [e|soup] eqn:Hsoup.
  { left. exists e. by eapply preview_fetch_raises, parser_raises. }
  destruct (urlparse_netloc url) as [e|url_host] eqn:Hhost.
  { left. exists e. by eapply preview_urlparse_raises. }
  right. by exists response, soup, url_host.
Qed.

End Preview.

(** ** The properties of the handlers *)

Section Properties.
Context `{Services}.

(** The answers of the first two calls are determined by the run. *)
Lemma search_answers_inj input_message log first first' d d' :
  search_answers input_message log first d →
  search_answers input_message log first' d' →
  first = first' ∧ d = d'.
Proof.
  intros (c & Hc & Hp & Hd) (c' & Hc' & Hp' & Hd').
  rewrite Hc in Hc'. injection Hc' as <-.
  rewrite Hp in Hp'. injection Hp' as <-.
  rewrite Hd in Hd'. by injection Hd' as <-.
Qed.

(** C1. In the reply of [chat], [summary], [full_explanation] and
    [relevant_sources] are the values computed by the later stages (the
    second completion, the third completion, the search), and
    [search_keywords] is that of the result of the first completion call. *)
Theorem chat_result_fields input_message log reply log' :
  chat input_message log = (inr reply, log') →
  ∃ first search_results second third result,
    upstream_answers input_message log first search_results second third ∧
    reply !! "my_response" = Some result ∧
    summary result = summary second ∧
    full_explanation result = full_explanation third ∧
    relevant_sources result = relevant_sources_of search_results ∧
    search_keywords result = search_keywords first.
Proof.
  intros (first & d & second & third & Hup & -> & _)%chat_inv.
  eexists first, d, second, third, _. split; [done|].
  split; [apply lookup_singleton_eq|]. done.
Qed.

(** C2. In the reply of [chat], [relevant_sources] is the list of the
    [link] values of the first five organic results of the search reply,
    in their order; it has at most five entries, at most as many as there
    are organic results, and none when there are none. *)
Theorem chat_relevant_sources input_message log reply log' :
  chat input_message log = (inr reply, log') →
  ∃ first search_results result,
    search_answers input_message log first search_results ∧
    reply !! "my_response" = Some result ∧
    relevant_sources result =
      (λ entry : gmap string string, py_of_option (entry !! "link"))
        <$> take 5 (default [] (search_results !! "organic_results")) ∧
    length (relevant_sources result) ≤ 5 ∧
    length (relevant_sources result)
      ≤ length (default [] (search_results !! "organic_results")) ∧
    (default [] (search_results !! "organic_results") = [] →
     relevant_sources result = []).
Proof.
  intros (first & d & second & third & [Hsearch _] & -> & _)%chat_inv.
  eexists first, d, _. split; [done|].
  split; [apply lookup_singleton_eq|]. cbn [relevant_sources].
  unfold relevant_sources_of, organic_results_of.
  rewrite length_fmap, length_take.
  repeat split; [lia..|]. by intros ->.
Qed.

(** C3. When the fetch of the [i]-th source raises [e], whether in the
    request, in the status check or in the parser, the loop does not raise:
    it returns one text per source, each the text or the error string of
    its own source, and the [i]-th of them is
    "Error fetching content from {url}: {e}"; every source is requested, in
    order, and the run goes on to the next completion call.  The request is
    not aborted: when the two last completion calls answer, it returns its
    reply, with the failed source among [relevant_sources]. *)
Theorem chat_fetch_error input_message log first search_results i url e :
  search_answers input_message log first search_results →
  relevant_sources_of search_results !! i = Some url →
  fetch_raises url
    (log_after_search input_message log first
     ++ gets (take i (relevant_sources_of search_results))) e →
  let urls := relevant_sources_of search_results in
  let log1 := log_after_search input_message log first in
  ∃ relevant_information,
    for_each urls scrape_one [] log1
      = (inr relevant_information, log1 ++ gets urls) ∧
    length relevant_information = length urls ∧
    relevant_information !! i =
      Some ("Error fetching content from " +:+ py_str url +:+ ": "
            +:+ exn_str e) ∧
    (∀ j url', urls !! j = Some url' →
       relevant_information !! j
       = Some (scraped_text url' (log1 ++ gets (take j urls)))) ∧
    (∃ rest,
       snd (chat input_message log) =
         log1 ++ gets urls
         ++ CompletionsParse "gpt-4o-mini"
              (final_messages input_message (join " " relevant_information))
            :: rest) ∧
    (∀ second third,
       upstream_answers input_message log first search_results second third →
       chat input_message log =
       (inr {[ "my_response" :=
                 mkResponse (summary second) (full_explanation third)
                   urls (search_keywords first) ]},
        log1 ++ gets urls
        ++ [CompletionsParse "gpt-4o-mini"
              (final_messages input_message (join " " relevant_information));
            CompletionsParse "gpt-4o-mini"
              (final_messages input_message
                 (join " " relevant_information))])).
Proof.
  intros Hsearch Hurl Hraises urls log1. subst urls log1.
  eexists (scraped_texts _ _). repeat split.
  - by rewrite scrape_run.
  - apply length_scraped_texts.
  - rewrite (lookup_scraped_texts _ _ _ _ Hurl).
    by rewrite (scraped_text_raises _ _ _ Hraises).
  - intros j url'. apply lookup_scraped_texts.
  - destruct (chat_log_after_search _ _ _ _ Hsearch) as (rest & Hlog & _).
    exists rest. rewrite Hlog. unfold log_after_scrape.
    by rewrite <- app_assoc.
  - intros second third Hup. rewrite (chat_returns _ _ _ _ _ _ Hup).
    unfold log_after_scrape. by rewrite <- app_assoc.
Qed.

(** C4. [get_preview] never raises: it always returns a reply, and when a
    step of its [try] raises [e] (the request, the status check, the
    parser or [urlparse]) the reply is
    {"title": "Error fetching preview", "url_host": "Error",
     "error": str(e)}. *)
Theorem get_preview_never_raises url log :
  (∃ reply, get_preview url log
            = (inr reply, log ++ [RequestsGet (PyStr url) 5])) ∧
  (∀ e, preview_raises url log e →
     fst (get_preview url log) =
     inr {[ "title" := PyStr "Error fetching preview";
            "url_host" := PyStr "Error";
            "error" := PyStr (exn_str e) ]}).
Proof.
  split.
  - destruct (preview_cases url log)
      as [[e He]|(response & soup & url_host & Hget & Hst & Hsoup & Hhost)].
    + eexists. by apply get_preview_caught.
    + eexists. by eapply get_preview_returns.
  - intros e He. by rewrite (get_preview_caught _ _ _ He).
Qed.

(** C5. Once the search has answered, the two last completion calls are
    made one after the other with one and the same message list: the two
    initial messages followed by the summarize and the explain instruction.
    The second of them is made whenever the first answers, and is left out
    only when the first raises, which ends the request.  When both answer
    with a parsed result the request returns, and the result of the first
    of them gives [summary] and the result of the second gives
    [full_explanation]; every request that returns is of this kind. *)
Theorem chat_final_calls input_message log first search_results :
  search_answers input_message log first search_results →
  let summary_input :=
    summary_input_of input_message log first search_results in
  let messages :=
    [message "system" system_preamble; message "user" input_message;
     message "system"
       ("Summarize the following information: " +:+ summary_input);
     message "system"
       ("Give a detailed explanation of the following information: "
        +:+ summary_input)] in
  let call := CompletionsParse "gpt-4o-mini" messages in
  let log2 := log_after_scrape input_message log first search_results in
  (∀ e,
     completions_parse log2 "gpt-4o-mini" messages = inl e →
     chat input_message log = (inl e, log2 ++ [call])) ∧
  (∀ summary_response,
     completions_parse log2 "gpt-4o-mini" messages = inr summary_response →
     snd (chat input_message log) = log2 ++ [call; call]) ∧
  (∀ summary_response full_explanation_response second third,
     completions_parse log2 "gpt-4o-mini" messages = inr summary_response →
     completions_parse (log2 ++ [call]) "gpt-4o-mini" messages
       = inr full_explanation_response →
     choices_0_message_parsed summary_response = inr (Some second) →
     choices_0_message_parsed full_explanation_response = inr (Some third) →
     ∃ result,
       chat input_message log
         = (inr {[ "my_response" := result ]}, log2 ++ [call; call]) ∧
       summary result = summary second ∧
       full_explanation result = full_explanation third) ∧
  (∀ reply log',
     chat input_message log = (inr reply, log') →
     ∃ summary_response full_explanation_response second third result,
       log' = log2 ++ [call; call] ∧
       completions_parse log2 "gpt-4o-mini" messages
         = inr summary_response ∧
       completions_parse (log2 ++ [call]) "gpt-4o-mini" messages
         = inr full_explanation_response ∧
       choices_0_message_parsed summary_response = inr (Some second) ∧
       choices_0_message_parsed full_explanation_response
         = inr (Some third) ∧
       reply !! "my_response" = Some result ∧
       summary result = summary second ∧
       full_explanation result = full_explanation third).
Proof.
  intros Hsearch summary_input messages call log2.
  split; [|split; [|split]].
  - intros e H2. destruct Hsearch as (c1 & H1 & Hp1 & Hd).
    subst summary_input messages call log2.
    unfold chat. norm_run. rewrite H1, Hp1. cbn [getattr].
    rewrite Hd, scrape_run. norm_run. by rewrite H2.
  - intros c2 H2. destruct Hsearch as (c1 & H1 & Hp1 & Hd).
    subst summary_input messages call log2.
    unfold chat. norm_run. rewrite H1, Hp1. cbn [getattr].
    rewrite Hd, scrape_run. norm_run. rewrite H2.
    case_call c3 H3; [done|].
    destruct (choices_0_message_parsed c3) as [e|[r3|]];
      destruct (choices_0_message_parsed c2) as [e'|[r2|]]; done.
  - intros c2 c3 second third H2 H3 Hp2 Hp3.
    assert (upstream_answers input_message log first search_results
              second third) as Hup.
    { split; [done|]. by exists c2, c3. }
    eexists. rewrite (chat_returns _ _ _ _ _ _ Hup). done.
  - intros reply log'
      (first' & d' & second & third & [Hsearch' Hlast] & -> & ->)%chat_inv.
    destruct (search_answers_inj _ _ _ _ _ _ Hsearch Hsearch') as [<- <-].
    destruct Hlast as (c2 & c3 & H2 & H3 & Hp2 & Hp3).
    eexists c2, c3, second, third, _.
    repeat split; done.
Qed.


(** C8, as amended.  A run of [chat] that returns a reply has made exactly
    three completion calls and exactly one search. *)
Theorem chat_calls input_message log reply log' :
  chat input_message log = (inr reply, log') →
  ∃ calls,
    log' = log ++ calls ∧
    count_calls is_completion calls = 3 ∧
    count_calls is_search calls = 1.
Proof.
  intros (first & d & second & third & _ & _ & ->)%chat_inv.
  eexists. split.
  - unfold log_after_scrape, log_after_search. rewrite <- !app_assoc.
    reflexivity.
  - by rewrite !count_calls_app, !count_calls_gets by auto.
Qed.

(** C9. When one of the first five organic results has no [link], the
    list of sources has [None] at its position (the list is as long as
    the results taken), [requests.get] is called with [None] after the
    sources before it, and a run that returns has [None] at that position
    of [relevant_sources]. *)
Theorem chat_missing_link input_message log first search_results
    organic_results i entry :
  search_answers input_message log first search_results →
  search_results !! "organic_results" = Some organic_results →
  i < 5 →
  organic_results !! i = Some entry →
  entry !! "link" = None →
  relevant_sources_of search_results !! i = Some PyNone ∧
  length (relevant_sources_of search_results)
    = length (take 5 organic_results) ∧
  (∃ rest,
     snd (chat input_message log) =
       log_after_search input_message log first
       ++ gets (take i (relevant_sources_of search_results))
       ++ RequestsGet PyNone 5 :: rest) ∧
  (∀ reply log',
     chat input_message log = (inr reply, log') →
     ∃ result,
       reply !! "my_response" = Some result ∧
       relevant_sources result !! i = Some PyNone).
Proof.
  intros Hsearch Hkey Hi Hentry Hlink.
  assert (relevant_sources_of search_results !! i = Some PyNone) as Hnone.
  { unfold relevant_sources_of, organic_results_of. rewrite Hkey. simpl.
    rewrite list_lookup_fmap, lookup_take_lt, Hentry by done.
    simpl. by rewrite Hlink. }
  repeat split; [done| | |].
  - unfold relevant_sources_of, organic_results_of. rewrite Hkey. simpl.
    by rewrite length_fmap.
  - destruct (chat_log_after_search _ _ _ _ Hsearch) as (rest & Hlog & _).
    eexists. rewrite Hlog. unfold log_after_scrape.
    rewrite <- (take_drop_middle _ _ _ Hnone) at 1.
    unfold gets. rewrite fmap_app, <- !app_assoc. reflexivity.
  - intros reply log'
      (first' & d' & second & third & [Hsearch' _] & -> & _)%chat_inv.
    destruct (search_answers_inj _ _ _ _ _ _ Hsearch Hsearch') as [<- <-].
    eexists. split; [apply lookup_singleton_eq|done].
Qed.

(** C10. On a page that is fetched and parsed, a title element whose
    [.string] is [None] gives the title [None], not "No title found"; a
    page without a title element gives "No title found"; and that text is
    the title in no other case than these two: no title element, or a
    title element whose [.string] is that very text. *)
Theorem get_preview_title_none url log response soup url_host :
  requests_get log (PyStr url) 5 = inr response →
  raise_for_status response = inr () →
  BeautifulSoup (text response) = inr soup →
  urlparse_netloc url = inr url_host →
  ∃ reply,
    fst (get_preview url log) = inr reply ∧
    (∀ tag, title soup = Some tag → tag_string tag = None →
       reply !! "title" = Some PyNone ∧
       reply !! "title" ≠ Some (PyStr "No title found")) ∧
    (title soup = None →
       reply !! "title" = Some (PyStr "No title found")) ∧
    (reply !! "title" = Some (PyStr "No title found") →
       title soup = None ∨
       ∃ tag, title soup = Some tag ∧
              tag_string tag = Some "No title found").
Proof.
  intros Hget Hstatus Hsoup Hhost.
  rewrite (get_preview_returns _ _ _ _ _ Hget Hstatus Hsoup Hhost).
  eexists. split; [done|].
  rewrite lookup_insert_eq.
  destruct (title soup) as [tag|];
    [|by split; [intros t [=]|split; [|left]]].
  destruct (tag_string tag) as [s|] eqn:Hstring; simpl.
  - split; [by intros t [= <-]; rewrite Hstring|].
    split; [done|]. intros [= ->]. right. by exists tag.
  - split; [by intros t [= <-]|]. done.
Qed.

End Properties.

(** ** The properties on the concrete services *)

Lemma demo_chat_returns :
  @chat Demo.services "rocq" []
  = (inr Demo.reply, snd (@chat Demo.services "rocq" [])).
Proof. vm_compute. reflexivity. Defined.

Lemma demo_search_answers :
  @search_answers Demo.services "rocq" [] (Demo.first_answer "rocq")
    Demo.results.
Proof.
  exists (mkCompletion (inr (Some (Demo.first_answer "rocq")))).
  split; [reflexivity|]. split; [reflexivity|]. vm_compute. reflexivity.
Defined.


Lemma demo_upstream_answers :
  @upstream_answers Demo.services "rocq" [] (Demo.first_answer "rocq")
    Demo.results
    (mkResponse "second summary" "second explanation" [] ["second"])
    (mkResponse "third summary" "third explanation" [] ["third"]).
Proof.
  split; [exact demo_search_answers|].
  exists
    (mkCompletion
       (inr (Some (mkResponse "second summary" "second explanation"
                     [] ["second"])))),
    (mkCompletion
       (inr (Some (mkResponse "third summary" "third explanation"
                     [] ["third"])))).
  split; [vm_compute; reflexivity|]. split; [vm_compute; reflexivity|].
  split; reflexivity.
Defined.

Lemma chat_result_fields_witness :
  ∃ first search_results second third result,
    @upstream_answers Demo.services "rocq" [] first search_results second third
    ∧ Demo.reply !! "my_response" = Some result
    ∧ summary result = summary second
    ∧ full_explanation result = full_explanation third
    ∧ relevant_sources result = relevant_sources_of search_results
    ∧ search_keywords result = search_keywords first.
Proof.
  exact (@chat_result_fields Demo.services "rocq" [] Demo.reply _
           demo_chat_returns).
Defined.

Lemma chat_relevant_sources_witness :
  ∃ first search_results result,
    @search_answers Demo.services "rocq" [] first search_results
    ∧ Demo.reply !! "my_response" = Some result
    ∧ relevant_sources result =
        (λ entry : gmap string string, py_of_option (entry !! "link"))
          <$> take 5 (default [] (search_results !! "organic_results"))
    ∧ length (relevant_sources result) ≤ 5
    ∧ length (relevant_sources result)
        ≤ length (default [] (search_results !! "organic_results"))
    ∧ (default [] (search_results !! "organic_results") = [] →
       relevant_sources result = []).
Proof.
  exact (@chat_relevant_sources Demo.services "rocq" [] Demo.reply _
           demo_chat_returns).
Defined.

(** The second source of the run is [None]; the request for it raises, the
    corpus has the error string at its place, and the request returns. *)
Lemma chat_fetch_error_witness :
  relevant_sources_of Demo.results !! 1 = Some PyNone
  ∧ fst (@chat Demo.services "rocq" []) = inr Demo.reply
  ∧ ∃ relevant_information,
      length relevant_information = 5
      ∧ relevant_information !! 1 =
          Some "Error fetching content from None: Invalid URL 'None': No scheme supplied. Perhaps you meant https://None?".
Proof.
  split; [vm_compute; reflexivity|].
  destruct (@chat_fetch_error Demo.services "rocq" []
              (Demo.first_answer "rocq") Demo.results 1 PyNone
              Demo.missing_schema demo_search_answers)
    as (relevant_information & _ & Hlength & Hentry & _ & _ & Hreturns).
  - vm_compute. reflexivity.
  - apply get_raises. reflexivity.
  - split.
    + rewrite (Hreturns _ _ demo_upstream_answers). reflexivity.
    + exists relevant_information. split; [exact Hlength | exact Hentry].
Defined.

(** A URL nothing answers at gives the error reply. *)
Lemma get_preview_never_raises_witness :
  fst (@get_preview Demo.services "https://down.example" [])
  = inr {[ "title" := PyStr "Error fetching preview";
           "url_host" := PyStr "Error";
           "error" := PyStr "timed out" ]}.
Proof.
  apply (proj2 (@get_preview_never_raises Demo.services
                  "https://down.example" [])
           (Exn "ConnectTimeout" "timed out")).
  apply preview_fetch_raises, get_raises. vm_compute. reflexivity.
Defined.

(** The run on the question "rocq": both calls are made with the same four
    messages, and the reply takes [summary] from the first of them and
    [full_explanation] from the second. *)
Lemma chat_final_calls_witness :
  ∃ messages result,
    length messages = 4
    ∧ @chat Demo.services "rocq" [] =
        (inr {[ "my_response" := result ]},
         log_after_scrape (H := Demo.services) "rocq" []
           (Demo.first_answer "rocq") Demo.results
         ++ [CompletionsParse "gpt-4o-mini" messages;
             CompletionsParse "gpt-4o-mini" messages])
    ∧ summary result = "second summary"
    ∧ full_explanation result = "third explanation".
Proof.
  destruct (@chat_final_calls Demo.services "rocq" []
              (Demo.first_answer "rocq") Demo.results demo_search_answers)
    as (_ & _ & Hreturns & _).
  destruct (Hreturns
              (mkCompletion
                 (inr (Some (mkResponse "second summary" "second explanation"
                               [] ["second"]))))
              (mkCompletion
                 (inr (Some (mkResponse "third summary" "third explanation"
                               [] ["third"]))))
              (mkResponse "second summary" "second explanation" [] ["second"])
              (mkResponse "third summary" "third explanation" [] ["third"]))
    as (result & Hrun & Hsummary & Hfull).
  - vm_compute. reflexivity.
  - vm_compute. reflexivity.
  - reflexivity.
  - reflexivity.
  - eexists _, result. split; [|split; [exact Hrun|split]].
    + reflexivity.
    + exact Hsummary.
    + exact Hfull.
Defined.


Lemma chat_calls_witness :
  ∃ calls,
    snd (@chat Demo.services "rocq" []) = [] ++ calls
    ∧ count_calls is_completion calls = 3
    ∧ count_calls is_search calls = 1.
Proof.
  exact (@chat_calls Demo.services "rocq" [] Demo.reply _ demo_chat_returns).
Defined.

Lemma chat_missing_link_witness :
  relevant_sources_of Demo.results !! 1 = Some PyNone
  ∧ ∃ rest,
      snd (@chat Demo.services "rocq" []) =
        log_after_search (H := Demo.services) "rocq" []
          (Demo.first_answer "rocq")
        ++ gets (take 1 (relevant_sources_of Demo.results))
        ++ RequestsGet PyNone 5 :: rest.
Proof.
  destruct (@chat_missing_link Demo.services "rocq" []
              (Demo.first_answer "rocq") Demo.results
              (default [] (Demo.results !! "organic_results")) 1
              {[ "title" := "no link here" ]} demo_search_answers)
    as (Hnone & _ & Hlog & _).
  - vm_compute. reflexivity.
  - lia.
  - vm_compute. reflexivity.
  - vm_compute. reflexivity.
  - split; [exact Hnone | exact Hlog].
Defined.

(** The page of empty.example has an empty title element. *)
Lemma get_preview_title_none_witness :
  ∃ reply,
    fst (@get_preview Demo.services "https://empty.example" []) = inr reply
    ∧ reply !! "title" = Some PyNone
    ∧ reply !! "title" ≠ Some (PyStr "No title found").
Proof.
  destruct (@get_preview_title_none Demo.services "https://empty.example" []
              (mkHttpResponse (inr ()) Demo.page_empty_title)
              (mkSoup (Demo.paragraphs []) (Some (mkTag "" None)))
              "empty.example")
    as (reply & Hreply & Htitle & _); [reflexivity..|].
  exists reply. split; [exact Hreply|].
  exact (Htitle (mkTag "" None) eq_refl eq_refl).
Defined.

(** ** Where the handlers differ from their description *)

(** C6.  The page of empty.example is fetched and parsed and has a title
    element, whose text is the empty string; the title of the reply is
    [None], no string at all, although line 131 declares [title: str] and
    both other branches of the handler give a string. *)
Lemma get_preview_title_cex :
  let tag := mkTag "" None in
  let soup := mkSoup (Demo.paragraphs []) (Some tag) in
  let response := mkHttpResponse (inr ()) Demo.page_empty_title in
  let run := @get_preview Demo.services "https://empty.example" [] in
  requests_get (Services := Demo.services) [] (PyStr "https://empty.example") 5
    = inr response
  ∧ raise_for_status response = inr ()
  ∧ BeautifulSoup (Services := Demo.services) (text response) = inr soup
  ∧ urlparse_netloc (Services := Demo.services) "https://empty.example"
    = inr "empty.example"
  ∧ title soup = Some tag
  ∧ fst run = inr {[ "title" := PyNone; "url_host" := PyStr "empty.example" ]}
  ∧ fst run ≠ inr {[ "title" := PyStr (get_text tag);
                     "url_host" := PyStr "empty.example" ]}
  ∧ ∀ s : string,
      fst run ≠ inr {[ "title" := PyStr s;
                       "url_host" := PyStr "empty.example" ]}.
Proof.
  assert (∀ s : string,
    fst (@get_preview Demo.services "https://empty.example" [])
    ≠ inr {[ "title" := PyStr s; "url_host" := PyStr "empty.example" ]})
    as Hno.
  { intros s Heq.
    assert (({[ "title" := PyNone; "url_host" := PyStr "empty.example" ]}
             : gmap string pyval) !! "title"
            = ({[ "title" := PyStr s; "url_host" := PyStr "empty.example" ]}
               : gmap string pyval) !! "title") as Htitle.
    { f_equal. change (fst (@get_preview Demo.services
                              "https://empty.example" []))
        with (inr (B := gmap string pyval) (A := pyexn)
                {[ "title" := PyNone; "url_host" := PyStr "empty.example" ]})
        in Heq.
      by injection Heq. }
    by rewrite !lookup_insert_eq in Htitle. }
  repeat split; try reflexivity; [apply Hno | exact Hno].
Qed.

(** C8, as stated, fails when the completion service is down: the run ends
    in the exception of the first call, after one completion call and no
    search. *)
Lemma chat_calls_cex :
  let run := @chat Demo.services_llm_down "rocq" [] in
  fst run = inl (Exn "APIConnectionError" "Connection error.")
  ∧ count_calls is_completion (snd run) = 1
  ∧ count_calls is_search (snd run) = 0
  ∧ ¬ (3 ≤ count_calls is_completion (snd run)
       ∧ count_calls is_search (snd run) = 1).
Proof.
  repeat split; try reflexivity. vm_compute. intros [Hle _]. lia.
Qed.

(** ** Further properties of [chat]: how a request fails *)

Section Failures.
Context `{Services}.

(** X1. When the first completion call raises, or reading [.parsed] of its
    answer raises, the request ends in that very exception, and the
    completion call is the only call it has made. *)
Theorem chat_first_call_fails input_message log e :
  completions_parse log "gpt-4o-mini" (initial_messages input_message) = inl e
  ∨ (∃ response,
       completions_parse log "gpt-4o-mini" (initial_messages input_message)
         = inr response ∧
       choices_0_message_parsed response = inl e) →
  chat input_message log =
  (inl e,
   log ++ [CompletionsParse "gpt-4o-mini" (initial_messages input_message)]).
Proof.
  intros [H1|(response & H1 & Hp1)]; unfold chat; norm_run; rewrite H1.
  - done.
  - by rewrite Hp1.
Qed.

(** X2. When the model refuses the first call ([.parsed] is [None]), the
    request ends in an [AttributeError] on [search_keywords]; no search is
    made. *)
Theorem chat_first_refusal input_message log response :
  completions_parse log "gpt-4o-mini" (initial_messages input_message)
    = inr response →
  choices_0_message_parsed response = inr None →
  chat input_message log =
  (inl (Exn "AttributeError"
          "'NoneType' object has no attribute 'search_keywords'"),
   log ++ [CompletionsParse "gpt-4o-mini" (initial_messages input_message)]).
Proof.
  intros H1 Hp1. unfold chat. norm_run. by rewrite H1, Hp1.
Qed.

(** X3. Once the first call has answered, the search is the next call, and
    it is made with the query [q] equal to the keywords joined by single
    spaces, the key [api_key] equal to the configured key and the engine
    "google"; with no keyword at all the search is still made, with the
    empty query. *)
Theorem chat_search_query input_message log response first :
  completions_parse log "gpt-4o-mini" (initial_messages input_message)
    = inr response →
  choices_0_message_parsed response = inr (Some first) →
  ∃ params rest,
    snd (chat input_message log) =
      log ++ [CompletionsParse "gpt-4o-mini" (initial_messages input_message);
              SearchGetDict params] ++ rest ∧
    params !! "q" = Some (String.concat " " (search_keywords first)) ∧
    params !! "api_key" = Some SERPAPI_KEY ∧
    params !! "engine" = Some "google" ∧
    dom params = {[ "q"; "api_key"; "engine" ]} ∧
    (search_keywords first = [] → params !! "q" = Some "").
Proof.
  intros H1 Hp1. exists (search_params_of first).
  assert (∃ rest,
    snd (chat input_message log) =
      log_after_search input_message log first ++ rest) as [rest Hlog].
  { destruct (get_dict
                (log ++ [CompletionsParse "gpt-4o-mini"
                           (initial_messages input_message)])
                (search_params_of first)) as [e|search_results] eqn:Hd.
    - exists []. unfold chat. norm_run. rewrite H1, Hp1. cbn [getattr].
      rewrite Hd. by norm_run.
    - destruct (chat_log_after_search input_message log first search_results)
        as (rest & Hlog & _); [by exists response|].
      eexists. rewrite Hlog. unfold log_after_scrape.
      rewrite <- app_assoc. reflexivity. }
  exists rest. split.
  { rewrite Hlog. unfold log_after_search. by rewrite <- app_assoc. }
  unfold search_params_of, join.
  split; [by simplify_map_eq|]. split; [by simplify_map_eq|].
  split; [by simplify_map_eq|]. split; [|by intros ->].
  rewrite !dom_insert_L, dom_singleton_L. set_solver.
Qed.

(** X4. When the search raises, the request ends in that exception right
    after it: no page is requested and no further completion call is made. *)
Theorem chat_search_raises input_message log response first e :
  completions_parse log "gpt-4o-mini" (initial_messages input_message)
    = inr response →
  choices_0_message_parsed response = inr (Some first) →
  get_dict
    (log ++ [CompletionsParse "gpt-4o-mini" (initial_messages input_message)])
    (search_params_of first) = inl e →
  chat input_message log
  = (inl e, log_after_search input_message log first) ∧
  count_calls is_page_request (log_after_search input_message log first)
  = count_calls is_page_request log.
Proof.
  intros H1 Hp1 Hd. split.
  - unfold chat. norm_run. rewrite H1, Hp1. cbn [getattr]. rewrite Hd.
    by norm_run.
  - unfold log_after_search. by rewrite count_calls_app.
Qed.

(** X5. When the second completion call raises, the request ends in that
    exception and the third call is not made. *)
Theorem chat_summary_call_raises input_message log first search_results e :
  search_answers input_message log first search_results →
  let messages :=
    final_messages input_message
      (summary_input_of input_message log first search_results) in
  let log2 := log_after_scrape input_message log first search_results in
  completions_parse log2 "gpt-4o-mini" messages = inl e →
  chat input_message log
  = (inl e, log2 ++ [CompletionsParse "gpt-4o-mini" messages]).
Proof.
  intros (c1 & H1 & Hp1 & Hd) messages log2 H2. subst messages log2.
  unfold chat. norm_run. rewrite H1, Hp1. cbn [getattr].
  rewrite Hd, scrape_run. norm_run. by rewrite H2.
Qed.

(** X6. When the third completion call raises, the request ends in that
    exception, whatever the second call answered. *)
Theorem chat_explanation_call_raises input_message log first search_results
    summary_response e :
  search_answers input_message log first search_results →
  let messages :=
    final_messages input_message
      (summary_input_of input_message log first search_results) in
  let call := CompletionsParse "gpt-4o-mini" messages in
  let log2 := log_after_scrape input_message log first search_results in
  completions_parse log2 "gpt-4o-mini" messages = inr summary_response →
  completions_parse (log2 ++ [call]) "gpt-4o-mini" messages = inl e →
  chat input_message log = (inl e, log2 ++ [call; call]).
Proof.
  intros (c1 & H1 & Hp1 & Hd) messages call log2 H2 H3.
  subst messages call log2.
  unfold chat. norm_run. rewrite H1, Hp1. cbn [getattr].
  rewrite Hd, scrape_run. norm_run. by rewrite H2, H3.
Qed.

(** X7. Once the two last calls have both answered, the request has made
    all its calls, and it can still fail while their results are read: an
    exception of [.parsed] is passed on, that of the second call's answer
    first, and even when the other answer is a refusal; a refusal of the
    second call gives an [AttributeError] on [summary], a refusal of the
    third call alone one on [full_explanation]. *)
Theorem chat_late_failures input_message log first search_results
    summary_response full_explanation_response :
  search_answers input_message log first search_results →
  let messages :=
    final_messages input_message
      (summary_input_of input_message log first search_results) in
  let call := CompletionsParse "gpt-4o-mini" messages in
  let log2 := log_after_scrape input_message log first search_results in
  completions_parse log2 "gpt-4o-mini" messages = inr summary_response →
  completions_parse (log2 ++ [call]) "gpt-4o-mini" messages
    = inr full_explanation_response →
  snd (chat input_message log) = log2 ++ [call; call] ∧
  (∀ e,
     choices_0_message_parsed summary_response = inl e →
     fst (chat input_message log) = inl e) ∧
  (∀ o e,
     choices_0_message_parsed summary_response = inr o →
     choices_0_message_parsed full_explanation_response = inl e →
     fst (chat input_message log) = inl e) ∧
  (∀ o,
     choices_0_message_parsed summary_response = inr None →
     choices_0_message_parsed full_explanation_response = inr o →
     fst (chat input_message log) =
     inl (Exn "AttributeError"
            "'NoneType' object has no attribute 'summary'")) ∧
  (∀ second,
     choices_0_message_parsed summary_response = inr (Some second) →
     choices_0_message_parsed full_explanation_response = inr None →
     fst (chat input_message log) =
     inl (Exn "AttributeError"
            "'NoneType' object has no attribute 'full_explanation'")).
Proof.
  intros (c1 & H1 & Hp1 & Hd) messages call log2 H2 H3.
  subst messages call log2.
  unfold chat. norm_run. rewrite H1, Hp1. cbn [getattr].
  rewrite Hd, scrape_run. norm_run. rewrite H2, H3.
  split; [|split; [|split; [|split]]].
  - destruct (choices_0_message_parsed full_explanation_response)
      as [e|[r3|]];
      destruct (choices_0_message_parsed summary_response) as [e'|[r2|]];
      done.
  - by intros e ->.
  - by intros o e -> ->.
  - by intros o -> ->.
  - by intros second -> ->.
Qed.

(** X8. A request returns a reply exactly when the three completion calls
    and the search answer; the reply and the calls made are then fixed:
    one completion call, the search, one page request per source in order,
    two completion calls. *)
Theorem chat_returns_iff input_message log reply log' :
  chat input_message log = (inr reply, log') ↔
  ∃ first search_results second third,
    upstream_answers input_message log first search_results second third ∧
    reply =
      {[ "my_response" :=
           mkResponse (summary second) (full_explanation third)
             (relevant_sources_of search_results) (search_keywords first) ]} ∧
    log' =
      log
      ++ [CompletionsParse "gpt-4o-mini" (initial_messages input_message);
          SearchGetDict (search_params_of first)]
      ++ gets (relevant_sources_of search_results)
      ++ [CompletionsParse "gpt-4o-mini"
            (final_messages input_message
               (summary_input_of input_message log first search_results));
          CompletionsParse "gpt-4o-mini"
            (final_messages input_message
               (summary_input_of input_message log first search_results))].
Proof.
  split.
  - intros (first & d & second & third & Hup & -> & ->)%chat_inv.
    exists first, d, second, third. split; [done|]. split; [done|].
    unfold log_after_scrape, log_after_search. by rewrite <- !app_assoc.
  - intros (first & d & second & third & Hup & -> & ->).
    rewrite (chat_returns _ _ _ _ _ _ Hup).
    unfold log_after_scrape, log_after_search. by rewrite <- !app_assoc.
Qed.

Lemma count_page_requests_gets urls :
  count_calls is_page_request (gets urls) = length urls.
Proof.
  unfold count_calls, gets. induction urls as [|url urls IH]; [done|].
  simpl. f_equal. exact IH.
Qed.

Lemma count_untimed_requests_gets urls :
  count_calls is_untimed_request (gets urls) = 0.
Proof.
  unfold count_calls, gets. by induction urls as [|url urls IH].
Qed.

(** X9. Whatever the services do, a request asks for at most five pages,
    each with a timeout of 5; when the search has answered it asks for as
    many pages as there are organic results, up to five. *)
Theorem chat_page_requests input_message log :
  ∃ calls,
    snd (chat input_message log) = log ++ calls ∧
    count_calls is_page_request calls ≤ 5 ∧
    count_calls is_untimed_request calls = 0 ∧
    (∀ first search_results,
       search_answers input_message log first search_results →
       count_calls is_page_request calls
       = length (default [] (search_results !! "organic_results")) `min` 5).
Proof.
  set (call := CompletionsParse "gpt-4o-mini" (initial_messages input_message)).
  destruct (completions_parse log "gpt-4o-mini"
              (initial_messages input_message)) as [e|c1] eqn:H1.
  { exists [call]. split; [|split; [cbn; lia|split; [done|]]].
    - unfold chat. norm_run. by rewrite H1.
    - intros first d (c & Hc & _). congruence. }
  destruct (choices_0_message_parsed c1) as [e|[r1|]] eqn:Hp1.
  1, 3: exists [call]; (split; [|split; [cbn; lia|split; [done|]]]);
    [unfold chat; norm_run; by rewrite H1, Hp1
    |intros first d (c & Hc & Hp & _); congruence].
  destruct (get_dict (log ++ [call]) (search_params_of r1))
    as [e|search_results] eqn:Hd.
  { exists [call; SearchGetDict (search_params_of r1)].
    split; [|split; [cbn; lia|split; [done|]]].
    - unfold chat. subst call. norm_run. rewrite H1, Hp1. cbn [getattr].
      rewrite Hd. by norm_run.
    - intros first d (c & Hc & Hp & Hd'). subst call.
      assert (first = r1) as -> by congruence. congruence. }
  assert (search_answers input_message log r1 search_results) as Hsearch
    by (by exists c1).
  destruct (chat_log_after_search _ _ _ _ Hsearch) as (rest & Hlog & Hrest).
  assert (length (relevant_sources_of search_results)
          = length (default [] (search_results !! "organic_results")) `min` 5)
    as Hlength.
  { unfold relevant_sources_of, organic_results_of.
    rewrite length_fmap, length_take. lia. }
  eexists. split.
  { rewrite Hlog. unfold log_after_scrape, log_after_search.
    rewrite <- !app_assoc. reflexivity. }
  rewrite !count_calls_app, count_page_requests_gets,
    count_untimed_requests_gets.
  assert (count_calls is_page_request
            (CompletionsParse "gpt-4o-mini"
               (final_messages input_message
                  (summary_input_of input_message log r1 search_results))
             :: rest) = 0
          ∧ count_calls is_untimed_request
              (CompletionsParse "gpt-4o-mini"
                 (final_messages input_message
                    (summary_input_of input_message log r1 search_results))
               :: rest) = 0) as [-> ->]
    by (by destruct Hrest as [-> | ->]).
  split; [cbn; lia|]. split; [done|].
  intros first d Hsearch'.
  destruct (search_answers_inj _ _ _ _ _ _ Hsearch Hsearch') as [<- <-].
  cbn. lia.
Qed.

(** X10. A source whose page is fetched and parsed contributes the texts of
    the page's paragraphs, in document order, joined by single spaces: the
    empty string when the page has no paragraph. *)
Theorem scrape_fetch_success urls log i url response soup :
  urls !! i = Some url →
  requests_get (log ++ gets (take i urls)) url 5 = inr response →
  raise_for_status response = inr () →
  BeautifulSoup (text response) = inr soup →
  ∃ relevant_information,
    for_each urls scrape_one [] log
      = (inr relevant_information, log ++ gets urls) ∧
    length relevant_information = length urls ∧
    relevant_information !! i
      = Some (String.concat " " (get_text <$> find_all soup "p")) ∧
    (find_all soup "p" = [] → relevant_information !! i = Some "").
Proof.
  intros Hurl Hget Hstatus Hsoup.
  exists (scraped_texts urls log).
  assert (scraped_texts urls log !! i
          = Some (String.concat " " (get_text <$> find_all soup "p")))
    as Hentry.
  { rewrite (lookup_scraped_texts _ _ _ _ Hurl). unfold scraped_text.
    by rewrite (fetch_text_returns _ _ _ _ Hget Hstatus Hsoup). }
  split; [by rewrite scrape_run|]. split; [apply length_scraped_texts|].
  split; [done|]. intros Hnone. by rewrite Hentry, Hnone.
Qed.

End Failures.

(** ** Further properties of [get_preview] *)

Section PreviewReplies.
Context `{Services}.

Lemma preview_raises_excluded url log e response soup url_host :
  requests_get log (PyStr url) 5 = inr response →
  raise_for_status response = inr () →
  BeautifulSoup (text response) = inr soup →
  urlparse_netloc url = inr url_host →
  ¬ preview_raises url log e.
Proof.
  intros Hget Hstatus Hsoup Hhost
    [[Hget'|response' Hget' Hstatus'|response' Hget' Hstatus' Hsoup']
    |response' soup' Hget' Hstatus' Hsoup' Hhost'];
    rewrite Hget in Hget'; try done; injection Hget' as <-.
  - by rewrite Hstatus in Hstatus'.
  - by rewrite Hsoup in Hsoup'.
  - rewrite Hsoup in Hsoup'. injection Hsoup' as <-.
    by rewrite Hhost in Hhost'.
Qed.

(** X12. The reply of [get_preview] always has the keys [title] and
    [url_host] and no key other than these and [error]; it has the key
    [error] exactly when a step of the handler raised, so that the two
    kinds of reply are told apart by that key. *)
Theorem get_preview_error_key url log :
  ∃ reply,
    fst (get_preview url log) = inr reply ∧
    {[ "title"; "url_host" ]} ⊆ dom reply ∧
    dom reply ⊆ {[ "title"; "url_host"; "error" ]} ∧
    (is_Some (reply !! "error") ↔ ∃ e, preview_raises url log e).
Proof.
  destruct (preview_cases url log)
    as [[e He]|(response & soup & url_host & Hget & Hst & Hsoup & Hhost)].
  - rewrite (get_preview_caught _ _ _ He). eexists. split; [done|].
    unfold preview_error. rewrite !dom_insert_L, dom_singleton_L.
    split; [set_unfold; tauto|]. split; [set_unfold; tauto|].
    split; [by exists e|]. intros _.
    by rewrite !lookup_insert_ne, lookup_singleton_eq by done.
  - rewrite (get_preview_returns _ _ _ _ _ Hget Hst Hsoup Hhost).
    eexists. split; [done|]. rewrite !dom_insert_L, dom_singleton_L.
    split; [set_unfold; tauto|]. split; [set_unfold; tauto|]. split.
    + intros [v Hv].
      by rewrite lookup_insert_ne, lookup_singleton_ne in Hv by done.
    + intros [e He].
      by destruct (preview_raises_excluded _ _ _ _ _ _ Hget Hst Hsoup Hhost He).
Qed.

End PreviewReplies.

(** ** The further properties on concrete services *)

Lemma script_search_answers rest :
  @search_answers
    (Script.services (Script.answer Script.keywords :: rest)
       (inr Demo.results))
    "rocq" [] Script.keywords Demo.results.
Proof.
  exists (mkCompletion (inr (Some Script.keywords))).
  split; [reflexivity|]. split; reflexivity.
Defined.

Lemma chat_first_call_fails_witness :
  @chat Demo.services_llm_down "rocq" []
  = (inl Script.connection_error,
     [CompletionsParse "gpt-4o-mini" (initial_messages "rocq")]).
Proof.
  apply (@chat_first_call_fails Demo.services_llm_down "rocq" []
           Script.connection_error).
  left. reflexivity.
Defined.

Lemma chat_first_refusal_witness :
  @chat (Script.services [Script.refusal] (inr Demo.results)) "rocq" []
  = (inl (Exn "AttributeError"
            "'NoneType' object has no attribute 'search_keywords'"),
     [CompletionsParse "gpt-4o-mini" (initial_messages "rocq")]).
Proof.
  apply (@chat_first_refusal
           (Script.services [Script.refusal] (inr Demo.results)) "rocq" []
           (mkCompletion (inr None))); reflexivity.
Defined.

Lemma chat_search_query_witness :
  ∃ params rest,
    snd (@chat Demo.services "rocq" []) =
      [] ++ [CompletionsParse "gpt-4o-mini" (initial_messages "rocq");
             SearchGetDict params] ++ rest
    ∧ params !! "q" = Some "rocq explained"
    ∧ params !! "api_key" = Some "serp-key".
Proof.
  destruct (@chat_search_query Demo.services "rocq" []
              (mkCompletion (inr (Some (Demo.first_answer "rocq"))))
              (Demo.first_answer "rocq") eq_refl eq_refl)
    as (params & rest & Hlog & Hq & Hkey & _).
  exists params, rest. split; [exact Hlog|]. split; [exact Hq | exact Hkey].
Defined.

Lemma chat_search_raises_witness :
  fst (@chat (Script.services [Script.answer Script.keywords]
                (inl Script.search_down)) "rocq" [])
  = inl Script.search_down.
Proof.
  destruct (@chat_search_raises
              (Script.services [Script.answer Script.keywords]
                 (inl Script.search_down)) "rocq" []
              (mkCompletion (inr (Some Script.keywords))) Script.keywords
              Script.search_down eq_refl eq_refl eq_refl) as [Hrun _].
  rewrite Hrun. reflexivity.
Defined.

Lemma chat_summary_call_raises_witness :
  fst (@chat (Script.services [Script.answer Script.keywords]
                (inr Demo.results)) "rocq" [])
  = inl Script.connection_error.
Proof.
  rewrite (@chat_summary_call_raises
             (Script.services [Script.answer Script.keywords]
                (inr Demo.results)) "rocq" []
             Script.keywords Demo.results Script.connection_error
             (script_search_answers [])).
  - reflexivity.
  - vm_compute. reflexivity.
Defined.

Lemma chat_explanation_call_raises_witness :
  fst (@chat (Script.services
                [Script.answer Script.keywords; Script.answer Script.second]
                (inr Demo.results)) "rocq" [])
  = inl Script.connection_error.
Proof.
  rewrite (@chat_explanation_call_raises
             (Script.services
                [Script.answer Script.keywords; Script.answer Script.second]
                (inr Demo.results)) "rocq" []
             Script.keywords Demo.results
             (mkCompletion (inr (Some Script.second)))
             Script.connection_error (script_search_answers _)).
  - reflexivity.
  - vm_compute. reflexivity.
  - vm_compute. reflexivity.
Defined.

(** The second call is refused and the answer of the third has no choice:
    the request ends in the [IndexError]. *)
Lemma chat_late_failures_witness :
  fst (@chat (Script.services
                [Script.answer Script.keywords; Script.refusal;
                 Script.no_choice]
                (inr Demo.results)) "rocq" [])
  = inl Script.index_error.
Proof.
  destruct (@chat_late_failures
              (Script.services
                 [Script.answer Script.keywords; Script.refusal;
                  Script.no_choice]
                 (inr Demo.results)) "rocq" []
              Script.keywords Demo.results
              (mkCompletion (inr None)) (mkCompletion (inl Script.index_error))
              (script_search_answers _))
    as (_ & _ & Hsecond & _).
  - vm_compute. reflexivity.
  - vm_compute. reflexivity.
  - exact (Hsecond None Script.index_error eq_refl eq_refl).
Defined.

(** The first source of the run is the page with the two paragraphs. *)
Lemma scrape_fetch_success_witness :
  ∃ relevant_information,
    length relevant_information = 5
    ∧ relevant_information !! 0 = Some "alpha beta".
Proof.
  destruct (@scrape_fetch_success Demo.services
              (relevant_sources_of Demo.results) [] 0
              (PyStr "https://a.example/")
              (mkHttpResponse (inr ()) Demo.page_a)
              (mkSoup (Demo.paragraphs ["alpha"; "beta"]) None))
    as (relevant_information & _ & Hlength & Hentry & _);
    [reflexivity..|].
  exists relevant_information. split; [exact Hlength | exact Hentry].
Defined.

(** Seven organic results: five pages are requested. *)
Lemma chat_page_requests_witness :
  ∃ calls,
    snd (@chat Demo.services "rocq" []) = [] ++ calls
    ∧ count_calls is_page_request calls = 5.
Proof.
  destruct (@chat_page_requests Demo.services "rocq" [])
    as (calls & Hlog & _ & _ & Hcount).
  exists calls. split; [exact Hlog|].
  exact (Hcount (Demo.first_answer "rocq") Demo.results demo_search_answers).
Defined.
